(** * A shallow embedding of [extensions/diagmagic.py]

    The module keeps three process-wide globals ([_draw_mode],
    [_publish_mode], [_inkscape_available]) and a fourth one, [_loaded], for
    the extension hook.  The magics talk to the outside world through
    [subprocess.call], [tempfile], [os], [io.open], the in-process renderer
    [command.main] and IPython's [publish_display_data].

    The embedding is a state and exception monad over a [world] that holds
    the globals, a small file system, the two output streams and a trace of
    the observable calls.  The behaviour of the outside world (what the
    external programs do, which temporary names [tempfile] picks, which
    modules import) is a record [externals] the code is parameterised by. *)

From Stdlib Require Import String Ascii List Bool ZArith Arith Lia.
Import ListNotations.
Open Scope string_scope.

Module Diagmagic.

(** ** Data *)

(** A file path, split as [(directory, base name)].  Python builds paths by
    string concatenation; [diag_name + '.' + fmt] only appends to the base
    name, which is [path_append]. *)
Definition path := (string * string)%type.

Definition path_str (p : path) : string := fst p ++ "/" ++ snd p.

Definition path_append (p : path) (s : string) : path := (fst p, snd p ++ s).

Definition path_eqb (p q : path) : bool :=
  String.eqb (fst p) (fst q) && String.eqb (snd p) (snd q).

(** Python values passed to [publish_display_data]. *)
Inductive pyval :=
| PyStr (s : string)
| PyNone
| PyDict (kv : list (string * string)).

(** Observable calls made by the module. *)
Inductive event :=
| EvCall (args : list string)                 (* subprocess.call(args) *)
| EvRender (command : string) (argv : list string) (* command.main(argv) *)
| EvRead (p : path) (data : string)           (* io.open(p, 'rb').read() *)
| EvPublish (a1 a2 a3 : pyval)                (* publish_display_data(a1, a2, a3) *)
| EvRegister.                                 (* ip.register_magics(BlockdiagMagics) *)

(** Python exceptions that can reach the code. *)
Inductive exc :=
| OSError (msg : string)
| CalledProcessError (cmd : list string) (output : string)
| NameError (name : string)
| TypeError (msg : string)
| ImportError (name : string)
| RendererError.

Record world := mkWorld {
  draw_mode : string;              (* _draw_mode *)
  publish_mode : string;           (* _publish_mode *)
  inkscape_cache : option bool;    (* _inkscape_available *)
  loaded : bool;                   (* _loaded *)
  tmp_counter : nat;               (* how many names tempfile has drawn *)
  dirs : list string;              (* existing directories *)
  files : list (path * string);    (* existing files and their bytes *)
  stdout : list string;
  stderr : list string;
  trace : list event }.

Definition set_draw_mode (v : string) (w : world) : world :=
  mkWorld v (publish_mode w) (inkscape_cache w) (loaded w) (tmp_counter w)
    (dirs w) (files w) (stdout w) (stderr w) (trace w).
Definition set_publish_mode (v : string) (w : world) : world :=
  mkWorld (draw_mode w) v (inkscape_cache w) (loaded w) (tmp_counter w)
    (dirs w) (files w) (stdout w) (stderr w) (trace w).
Definition set_inkscape_cache (v : option bool) (w : world) : world :=
  mkWorld (draw_mode w) (publish_mode w) v (loaded w) (tmp_counter w)
    (dirs w) (files w) (stdout w) (stderr w) (trace w).
Definition set_loaded (v : bool) (w : world) : world :=
  mkWorld (draw_mode w) (publish_mode w) (inkscape_cache w) v (tmp_counter w)
    (dirs w) (files w) (stdout w) (stderr w) (trace w).
Definition set_tmp_counter (v : nat) (w : world) : world :=
  mkWorld (draw_mode w) (publish_mode w) (inkscape_cache w) (loaded w) v
    (dirs w) (files w) (stdout w) (stderr w) (trace w).
Definition set_dirs (v : list string) (w : world) : world :=
  mkWorld (draw_mode w) (publish_mode w) (inkscape_cache w) (loaded w)
    (tmp_counter w) v (files w) (stdout w) (stderr w) (trace w).
Definition set_files (v : list (path * string)) (w : world) : world :=
  mkWorld (draw_mode w) (publish_mode w) (inkscape_cache w) (loaded w)
    (tmp_counter w) (dirs w) v (stdout w) (stderr w) (trace w).
Definition set_stdout (v : list string) (w : world) : world :=
  mkWorld (draw_mode w) (publish_mode w) (inkscape_cache w) (loaded w)
    (tmp_counter w) (dirs w) (files w) v (stderr w) (trace w).
Definition set_stderr (v : list string) (w : world) : world :=
  mkWorld (draw_mode w) (publish_mode w) (inkscape_cache w) (loaded w)
    (tmp_counter w) (dirs w) (files w) (stdout w) v (trace w).
Definition set_trace (v : list event) (w : world) : world :=
  mkWorld (draw_mode w) (publish_mode w) (inkscape_cache w) (loaded w)
    (tmp_counter w) (dirs w) (files w) (stdout w) (stderr w) v.

(** ** The file system *)

Definition file_get (p : path) (fs : list (path * string)) : option string :=
  match find (fun e => path_eqb (fst e) p) fs with
  | Some (_, c) => Some c
  | None => None
  end.

Definition file_del (p : path) (fs : list (path * string)) : list (path * string) :=
  filter (fun e => negb (path_eqb (fst e) p)) fs.

(** Writing a file replaces its previous contents. *)
Definition file_put (p : path) (c : string) (fs : list (path * string))
  : list (path * string) :=
  (p, c) :: file_del p fs.

Definition dir_exists (d : string) (ds : list string) : bool :=
  existsb (String.eqb d) ds.

(** [os.listdir(d)]: the base names of the entries of [d]. *)
Definition list_dir (d : string) (fs : list (path * string)) : list string :=
  map (fun e => snd (fst e)) (filter (fun e => String.eqb (fst (fst e)) d) fs).

(** What an external program writes: only files whose directory exists are
    created (a write into a missing directory fails inside the program). *)
Definition tool_writes (ds : list string) (ws : list (path * string))
    (fs : list (path * string)) : list (path * string) :=
  fold_left (fun acc pc =>
      if dir_exists (fst (fst pc)) ds then file_put (fst pc) (snd pc) acc else acc)
    ws fs.

(** ** ASCII [str.lower] *)

Definition lower_ascii (c : ascii) : ascii :=
  let n := nat_of_ascii c in
  if (Nat.leb 65 n && Nat.leb n 90)%bool then ascii_of_nat (n + 32)%nat else c.

Fixpoint lower (s : string) : string :=
  match s with
  | EmptyString => EmptyString
  | String c s' => String (lower_ascii c) (lower s')
  end.

(** ** The state and exception monad *)

Inductive result (A : Type) :=
| Ok (a : A)
| Err (e : exc).
Arguments Ok {A} a.
Arguments Err {A} e.

Definition M (A : Type) : Type := world -> result A * world.

Definition ret {A} (a : A) : M A := fun w => (Ok a, w).

Definition bind {A B} (m : M A) (k : A -> M B) : M B :=
  fun w => match m w with
           | (Ok a, w') => k a w'
           | (Err e, w') => (Err e, w')
           end.

Definition raise {A} (e : exc) : M A := fun w => (Err e, w).

Definition gets {A} (f : world -> A) : M A := fun w => (Ok (f w), w).

Definition modify (f : world -> world) : M unit := fun w => (Ok tt, f w).

(** [try: m except: h]: [h] decides which exceptions it handles. *)
Definition catch {A} (m : M A) (h : exc -> M A) : M A :=
  fun w => match m w with
           | (Ok a, w') => (Ok a, w')
           | (Err e, w') => h e w'
           end.

(** Run [m] and reify its outcome, as the body of a [try/finally]. *)
Definition attempt {A} (m : M A) : M (result A) :=
  fun w => let (r, w') := m w in (Ok r, w').

Definition of_result {A} (r : result A) : M A :=
  match r with Ok a => ret a | Err e => raise e end.

Notation "x <- m ;; k" := (bind m (fun x => k))
  (at level 61, m at next level, right associativity).
Notation "m ;;; k" := (bind m (fun _ => k))
  (at level 61, right associativity).

(** A system call: [check] tells whether it fails, and with which error;
    otherwise [f] is its effect on the world. *)
Definition os_call (check : world -> option exc) (f : world -> world) : M unit :=
  fun w => match check w with
           | Some e => (Err e, w)
           | None => (Ok tt, f w)
           end.

Definition emit (ev : event) : M unit :=
  modify (fun w => set_trace (trace w ++ [ev]) w).

Definition print_stdout (s : string) : M unit :=
  modify (fun w => set_stdout (stdout w ++ [s]) w).

Definition print_stderr (s : string) : M unit :=
  modify (fun w => set_stderr (stderr w ++ [s]) w).

(** ** The outside world *)

(** Outcome of [subprocess.call(args)]: the executable is missing (an
    [OSError]) or it ran, exited with a code and wrote some files. *)
Inductive call_result :=
| CallNotFound (msg : string)
| CallExited (code : Z) (writes : list (path * string)).

(** Outcome of the renderer's [command.main(argv)]. *)
Inductive render_result :=
| RenderRaised
| RenderDone (writes : list (path * string)).

Record externals := mkExternals {
  ext_call : list string -> call_result;
  ext_render : string -> list string -> render_result;
  (* the n-th name [tempfile] draws for a directory or a file; [None] when
     it cannot create one *)
  ext_mkdtemp : nat -> option string;
  ext_mkstemp : nat -> option string;
  (* whether [import <module>] succeeds *)
  ext_import : string -> bool }.

Section Code.

Variable ext : externals.

(** ** Library calls *)

(** [subprocess.call(args, stderr=subprocess.STDOUT, startupinfo=...)]
    returns the exit code; it raises [OSError] when the executable is
    missing and never raises [CalledProcessError]. *)
Definition subprocess_call (args : list string) : M Z :=
  emit (EvCall args) ;;;
  match ext_call ext args with
  | CallNotFound msg => raise (OSError msg)
  | CallExited code ws =>
      modify (fun w => set_files (tool_writes (dirs w) ws (files w)) w) ;;;
      ret code
  end.

Definition fresh_name : M nat :=
  n <- gets tmp_counter ;;
  modify (set_tmp_counter (S n)) ;;;
  ret n.

(** [tempfile.mkdtemp()] *)
Definition mkdtemp : M string :=
  n <- fresh_name ;;
  match ext_mkdtemp ext n with
  | None => raise (OSError "mkdtemp")
  | Some d =>
      os_call (fun w => if dir_exists d (dirs w) then Some (OSError "File exists") else None)
              (fun w => set_dirs (d :: dirs w) w) ;;;
      ret d
  end.

(** [tempfile.mkstemp(dir=d)]: creates an empty file in [d]. *)
Definition mkstemp (d : string) : M path :=
  n <- fresh_name ;;
  match ext_mkstemp ext n with
  | None => raise (OSError "mkstemp")
  | Some b =>
      os_call (fun w =>
                 if negb (dir_exists d (dirs w)) then Some (OSError "No such file or directory")
                 else match file_get (d, b) (files w) with
                      | Some _ => Some (OSError "File exists")
                      | None => None
                      end)
              (fun w => set_files (file_put (d, b) "" (files w)) w) ;;;
      ret (d, b)
  end.

(** [f = os.fdopen(fd, "wb"); f.write(c); f.close()] *)
Definition write_file (p : path) (c : string) : M unit :=
  os_call (fun w => if dir_exists (fst p) (dirs w) then None
                    else Some (OSError "No such file or directory"))
          (fun w => set_files (file_put p c (files w)) w).

(** [with io.open(p, 'rb') as f: data = f.read()] *)
Definition read_file (p : path) : M string :=
  fs <- gets files ;;
  match file_get p fs with
  | None => raise (OSError "No such file or directory")
  | Some c => emit (EvRead p c) ;;; ret c
  end.

(** [os.listdir(d)] *)
Definition listdir (d : string) : M (list string) :=
  os_call (fun w => if dir_exists d (dirs w) then None
                    else Some (OSError "No such file or directory"))
          (fun w => w) ;;;
  gets (fun w => list_dir d (files w)).

(** [os.unlink(p)] *)
Definition unlink (p : path) : M unit :=
  os_call (fun w => match file_get p (files w) with
                    | None => Some (OSError "No such file or directory")
                    | Some _ => None
                    end)
          (fun w => set_files (file_del p (files w)) w).

(** [os.rmdir(d)]: only an existing, empty directory is removed. *)
Definition rmdir (d : string) : M unit :=
  os_call (fun w => if negb (dir_exists d (dirs w)) then Some (OSError "No such file or directory")
                    else match list_dir d (files w) with
                         | [] => None
                         | _ :: _ => Some (OSError "Directory not empty")
                         end)
          (fun w => set_dirs (remove string_dec d (dirs w)) w).

(** [for x in l: f(x)] *)
Fixpoint for_each {A} (l : list A) (f : A -> M unit) : M unit :=
  match l with
  | [] => ret tt
  | x :: l' => f x ;;; for_each l' f
  end.

(** [command.main(argv)], run in process. *)
Definition command_main (command : string) (argv : list string) : M unit :=
  emit (EvRender command argv) ;;;
  match ext_render ext command argv with
  | RenderRaised => raise RendererError
  | RenderDone ws => modify (fun w => set_files (tool_writes (dirs w) ws (files w)) w)
  end.

(** [publish_display_data(a1, a2, a3)] of the host. *)
Definition publish_display_data (a1 a2 a3 : pyval) : M unit :=
  emit (EvPublish a1 a2 a3).

(** ** [BlockdiagMagics] *)

(** [run_command] (lines 59-77).  [os.name] is not ['nt'], so [startupinfo]
    stays [None].  In the [CalledProcessError] branch the format string has
    two [%s] and a single argument, so the [%] raises a [TypeError]. *)
Definition run_command (args : list string) : M bool :=
  catch (subprocess_call args ;;; ret true)
    (fun e => match e with
       | CalledProcessError cmd out =>
           print_stderr out ;;;
           raise (TypeError "not enough arguments for format string")
       | OSError msg =>
           print_stdout ("Exception " ++ msg) ;;;
           ret false
       | e => raise e
       end).

(** [inkscape_available] (lines 79-83). *)
Definition inkscape_available : M bool :=
  c <- gets inkscape_cache ;;
  match c with
  | None =>
      r <- run_command ["inkscape"; "--export-png"] ;;
      modify (set_inkscape_cache (Some r)) ;;;
      gets (fun w => match inkscape_cache w with Some b => b | None => false end)
  | Some b => ret b
  end.

(** [svg2png] (lines 85-87). *)
Definition svg2png (filename : path) : M unit :=
  _ <- run_command ["inkscape"; path_str filename ++ ".svg";
                    "--export-png=" ++ path_str filename ++ ".png"] ;;
  ret tt.

(** The body of the [try] of [diag] after [tmpdir] is bound
    (lines 99-127); it returns [data]. *)
Definition diag_body (tmpdir : string) (code : string) (command : string)
  : M string :=
  diag_name <- mkstemp tmpdir ;;
  write_file diag_name code ;;;
  dm <- gets draw_mode ;;
  let format := lower dm in
  let draw_name := path_append diag_name ("." ++ format) in
  let argv := [path_str diag_name; "-T"; format; "-o"; path_str draw_name] in
  dm' <- gets draw_mode ;;
  let argv := if String.eqb dm' "SVG" then (argv ++ [""])%list else argv in
  command_main command argv ;;;
  dm'' <- gets draw_mode ;;
  pm <- gets publish_mode ;;
  (if String.eqb dm'' "SVG" && String.eqb pm "PNG"
   then svg2png diag_name else ret tt) ;;;
  pm' <- gets publish_mode ;;
  let file_name := path_append diag_name ("." ++ lower pm') in
  read_file file_name.

(** The [finally] clause (lines 131-133). *)
Definition cleanup (tmpdir : string) : M unit :=
  names <- listdir tmpdir ;;
  for_each names (fun file => unlink (tmpdir, file)) ;;;
  rmdir tmpdir.

(** [diag] (lines 89-146).  When [tempfile.mkdtemp()] raises, [tmpdir] is
    unbound in the [finally] clause, whose [os.listdir(tmpdir)] raises
    [UnboundLocalError], a [NameError]. *)
Definition diag (line cell command : string) : M unit :=
  let code := cell ++ String "010" EmptyString in
  avail <- inkscape_available ;;
  (if avail then modify (set_draw_mode "SVG") else ret tt) ;;;
  r <- attempt mkdtemp ;;
  match r with
  | Err _ => raise (NameError "tmpdir")
  | Ok tmpdir =>
      body <- attempt (diag_body tmpdir code command) ;;
      cleanup tmpdir ;;;
      data <- of_result body ;;
      pm <- gets publish_mode ;;
      if String.eqb pm "SVG"
      then publish_display_data (PyStr "IPython.core.displaypub.publish_svg") PyNone
             (PyDict [("image/svg+xml", data)])
      else publish_display_data (PyDict [("image/png", data)]) PyNone
             (PyStr "IPython.core.displaypub.publish_png")
  end.

(** The four cell magics differ only in the renderer module they import. *)
Inductive magic := Actdiag | Blockdiag | Nwdiag | Seqdiag.

Definition magic_module (m : magic) : string :=
  match m with
  | Actdiag => "actdiag.command"
  | Blockdiag => "blockdiag.command"
  | Nwdiag => "nwdiag.command"
  | Seqdiag => "seqdiag.command"
  end.

(** [actdiag], [blockdiag], [nwdiag], [seqdiag] (lines 148-166). *)
Definition cell_magic (m : magic) (line cell : string) : M unit :=
  if ext_import ext (magic_module m) then diag line cell (magic_module m)
  else raise (ImportError (magic_module m)).

(** [setdiagsvg] (lines 168-171). *)
Definition setdiagsvg (line : string) : M unit :=
  modify (fun w => set_publish_mode "SVG" (set_draw_mode "SVG" w)).

(** [setdiagpng] (lines 173-176). *)
Definition setdiagpng (line : string) : M unit :=
  modify (fun w => set_publish_mode "PNG" (set_draw_mode "PNG" w)).

(** [load_ipython_extension] (lines 181-186). *)
Definition load_ipython_extension : M unit :=
  l <- gets loaded ;;
  if l then ret tt
  else emit EvRegister ;;; modify (set_loaded true).

(** ** The host: a sequence of commands *)

Inductive op :=
| OpLoad
| OpCell (m : magic) (line cell : string)
| OpSetSvg (line : string)
| OpSetPng (line : string).

Definition exec_op (o : op) : M unit :=
  match o with
  | OpLoad => load_ipython_extension
  | OpCell m line cell => cell_magic m line cell
  | OpSetSvg line => setdiagsvg line
  | OpSetPng line => setdiagpng line
  end.

(** The host runs commands one after another; an exception raised by one is
    reported and the globals keep whatever the command left in them. *)
Fixpoint run_ops (ops : list op) (w : world) : world :=
  match ops with
  | [] => w
  | o :: ops' => run_ops ops' (snd (exec_op o w))
  end.

End Code.

(** The module's globals right after import (lines 45-48, 179). *)
Definition module_init (ds : list string) (fs : list (path * string)) : world :=
  mkWorld "PNG" "PNG" None false 0 ds fs [] [] [].

(** ** [_import_all] (lines 54-57)

    The shell's user namespace is an association list, the newest binding
    first; [self.shell.push({k: v})] binds [k] to [v] in it.  The items of
    [module.__dict__] are a list of pairs. *)
Section ImportAll.

Variable V : Type.

Definition ns_lookup (ns : list (string * V)) (k : string) : option V :=
  match find (fun e => String.eqb (fst e) k) ns with
  | Some (_, v) => Some v
  | None => None
  end.

Definition ns_push (ns : list (string * V)) (k : string) (v : V) : list (string * V) :=
  (k, v) :: filter (fun e => negb (String.eqb (fst e) k)) ns.

Definition import_all (items : list (string * V)) (ns : list (string * V))
  : list (string * V) :=
  fold_left (fun ns kv =>
      if negb (String.prefix "__" (fst kv)) then ns_push ns (fst kv) (snd kv) else ns)
    items ns.

End ImportAll.

Arguments ns_lookup {V} ns k.
Arguments ns_push {V} ns k v.
Arguments import_all {V} items ns.

End Diagmagic.

(** * Reasoning about the embedding *)

Module Frame.
Import Diagmagic.

(** [m] keeps [P] true, whatever it returns or raises. *)
Definition preserves {A} (P : world -> Prop) (m : M A) : Prop :=
  forall w, P w -> P (snd (m w)).

Section Rules.
Variable P : world -> Prop.

Lemma preserves_ret {A} (a : A) : preserves P (ret a).
Proof. intros w H; exact H. Qed.

Lemma preserves_raise {A} (e : exc) : preserves P (@raise A e).
Proof. intros w H; exact H. Qed.

Lemma preserves_gets {A} (f : world -> A) : preserves P (gets f).
Proof. intros w H; exact H. Qed.

Lemma preserves_modify (f : world -> world) :
  (forall w, P w -> P (f w)) -> preserves P (modify f).
Proof. intros Hf w H; exact (Hf w H). Qed.

Lemma preserves_os_call (check : world -> option exc) (f : world -> world) :
  (forall w, P w -> check w = None -> P (f w)) -> preserves P (os_call check f).
Proof.
  intros Hf w H; unfold os_call.
  destruct (check w) eqn:Hc; simpl; auto.
Qed.

Lemma preserves_bind {A B} (m : M A) (k : A -> M B) :
  preserves P m -> (forall a, preserves P (k a)) -> preserves P (bind m k).
Proof.
  intros Hm Hk w H; unfold bind.
  specialize (Hm w H); destruct (m w) as [[a|e] w']; simpl in *; auto.
  apply Hk; exact Hm.
Qed.

Lemma preserves_catch {A} (m : M A) (h : exc -> M A) :
  preserves P m -> (forall e, preserves P (h e)) -> preserves P (catch m h).
Proof.
  intros Hm Hh w H; unfold catch.
  specialize (Hm w H); destruct (m w) as [[a|e] w']; simpl in *; auto.
  apply Hh; exact Hm.
Qed.

Lemma preserves_attempt {A} (m : M A) : preserves P m -> preserves P (attempt m).
Proof.
  intros Hm w H; unfold attempt.
  specialize (Hm w H); destruct (m w) as [r w']; simpl in *; auto.
Qed.

Lemma preserves_of_result {A} (r : result A) : preserves P (of_result r).
Proof. destruct r; intros w H; exact H. Qed.

Lemma preserves_for_each {A} (l : list A) (f : A -> M unit) :
  (forall x, preserves P (f x)) -> preserves P (for_each l f).
Proof.
  intros Hf; induction l as [|x l IH]; simpl.
  - apply preserves_ret.
  - apply preserves_bind; auto.
Qed.

End Rules.

Create HintDb pres.

(** One step of a [preserves] proof: a lemma of the hint database for an
    operation handled as a whole, a combinator rule, a case split, or the
    unfolding of the operation at the head. *)
Ltac pres_step :=
  match goal with
  | |- preserves _ _ => solve [eauto with pres]
  | |- preserves _ (bind _ _) => apply preserves_bind; [|intro; cbv beta]
  | |- preserves _ (catch _ _) => apply preserves_catch; [|intro; cbv beta]
  | |- preserves _ (attempt _) => apply preserves_attempt
  | |- preserves _ (ret _) => apply preserves_ret
  | |- preserves _ (raise _) => apply preserves_raise
  | |- preserves _ (gets _) => apply preserves_gets
  | |- preserves _ (of_result _) => apply preserves_of_result
  | |- preserves _ (for_each _ _) => apply preserves_for_each; intro; cbv beta
  | |- preserves _ (modify _) => apply preserves_modify
  | |- preserves _ (os_call _ _) => apply preserves_os_call
  | |- preserves _ (let _ := _ in _) => cbv zeta
  | |- preserves _ (if ?b then _ else _) => destruct b
  | |- preserves _ (match ?x with _ => _ end) => destruct x
  | |- preserves _ _ =>
      first [ progress unfold exec_op | progress unfold cell_magic
            | progress unfold diag | progress unfold diag_body
            | progress unfold cleanup | progress unfold mkdtemp
            | progress unfold mkstemp | progress unfold fresh_name
            | progress unfold write_file | progress unfold read_file
            | progress unfold listdir | progress unfold unlink
            | progress unfold rmdir | progress unfold command_main
            | progress unfold publish_display_data | progress unfold svg2png
            | progress unfold run_command | progress unfold subprocess_call
            | progress unfold inkscape_available | progress unfold setdiagsvg
            | progress unfold setdiagpng | progress unfold load_ipython_extension
            | progress unfold emit | progress unfold print_stdout
            | progress unfold print_stderr ]
  end.

(** [close] discharges the state updates [forall w, P w -> P (f w)]. *)
Ltac pres_with close := repeat pres_step; try close.

Lemma run_ops_preserves (P : world -> Prop) ext ops :
  (forall o, preserves P (exec_op ext o)) ->
  forall w, P w -> P (run_ops ext ops w).
Proof.
  intros Hop; induction ops as [|o ops IH]; intros w Hw; simpl; auto.
  apply IH, Hop, Hw.
Qed.

End Frame.

Module Claims.
Import Diagmagic Frame.

(** ** Counting events of the trace *)

Definition count_ev (f : event -> bool) (l : list event) : nat :=
  length (filter f l).

Definition is_register (ev : event) : bool :=
  match ev with EvRegister => true | _ => false end.

Definition is_load (o : op) : bool :=
  match o with OpLoad => true | _ => false end.

Lemma count_ev_snoc f l ev :
  count_ev f (l ++ [ev]) = count_ev f l + (if f ev then 1 else 0).
Proof.
  unfold count_ev; rewrite filter_app, length_app; simpl.
  destruct (f ev); reflexivity.
Qed.

(** ** The two format flags *)

Definition legal_mode (s : string) : Prop := s = "PNG" \/ s = "SVG".

Definition flags_legal (w : world) : Prop :=
  legal_mode (draw_mode w) /\ legal_mode (publish_mode w).

Lemma exec_op_flags_legal ext o : preserves flags_legal (exec_op ext o).
Proof.
  pres_with ltac:(intros []; intros; unfold flags_legal, legal_mode in *; simpl in *;
                  intuition congruence).
Qed.

(** ** The extension hook *)

Definition load_state (b : bool) (c : nat) (w : world) : Prop :=
  loaded w = b /\ count_ev is_register (trace w) = c.

Lemma exec_op_load_state ext o b c :
  is_load o = false -> preserves (load_state b c) (exec_op ext o).
Proof.
  destruct o; simpl; intros Hl; try discriminate;
  pres_with ltac:(intros [] [H1 H2]; intros; unfold load_state; simpl in *;
                  split; [assumption | rewrite ?count_ev_snoc; simpl; lia]).
Qed.

Lemma exec_op_loaded ext o w :
  loaded (snd (exec_op ext o w)) = loaded w || is_load o /\
  count_ev is_register (trace (snd (exec_op ext o w))) =
    count_ev is_register (trace w) + (if negb (loaded w) && is_load o then 1 else 0).
Proof.
  destruct (is_load o) eqn:Hl.
  - destruct o; try discriminate; simpl.
    unfold load_ipython_extension, bind, gets.
    destruct (loaded w) eqn:Hw; simpl.
    + rewrite Hw; split; [reflexivity | lia].
    + unfold emit, modify; simpl; rewrite count_ev_snoc; simpl; split; [reflexivity | lia].
  - destruct (exec_op_load_state ext o (loaded w) (count_ev is_register (trace w)) Hl w)
      as [H1 H2]; [split; reflexivity|].
    rewrite H1, H2, !orb_false_r, andb_false_r; split; [reflexivity | lia].
Qed.

Lemma run_ops_loaded ext ops w :
  loaded (run_ops ext ops w) = loaded w || existsb is_load ops /\
  count_ev is_register (trace (run_ops ext ops w)) =
    count_ev is_register (trace w)
    + (if negb (loaded w) && existsb is_load ops then 1 else 0).
Proof.
  revert w; induction ops as [|o ops IH]; intros w; simpl.
  - rewrite orb_false_r, andb_false_r; split; [reflexivity | lia].
  - destruct (exec_op_loaded ext o w) as [H1 H2].
    destruct (IH (snd (exec_op ext o w))) as [H3 H4].
    rewrite H3, H4, H1, H2.
    destruct (loaded w), (is_load o), (existsb is_load ops); simpl;
      split; reflexivity || lia.
Qed.


Lemma bind_ok {A B} (m : M A) (k : A -> M B) w a w1 :
  m w = (Ok a, w1) -> bind m k w = k a w1.
Proof. intros H; unfold bind; rewrite H; reflexivity. Qed.

(** ** [run_command] never raises *)

Lemma run_command_ok ext args w :
  exists b, fst (run_command ext args w) = Ok b.
Proof.
  unfold run_command, catch, subprocess_call, bind, emit, modify, ret, raise.
  destruct (ext_call ext args); simpl; unfold print_stdout, bind, modify, ret;
    simpl; eauto.
Qed.

Lemma inkscape_available_eq ext w :
  inkscape_available ext w =
  match inkscape_cache w with
  | Some b => (Ok b, w)
  | None =>
      match run_command ext ["inkscape"; "--export-png"] w with
      | (Ok r, w1) => (Ok r, set_inkscape_cache (Some r) w1)
      | (Err e, w1) => (Err e, w1)
      end
  end.
Proof.
  unfold inkscape_available, bind, gets, modify, ret; cbv beta iota.
  destruct (inkscape_cache w); [reflexivity|].
  destruct (run_command ext ["inkscape"; "--export-png"] w) as [[r|e] w1]; reflexivity.
Qed.

Lemma inkscape_available_result ext w :
  exists b, fst (inkscape_available ext w) = Ok b /\
            inkscape_cache (snd (inkscape_available ext w)) = Some b.
Proof.
  rewrite inkscape_available_eq.
  destruct (inkscape_cache w) as [b|] eqn:Hc.
  - exists b; split; [reflexivity | exact Hc].
  - destruct (run_command_ok ext ["inkscape"; "--export-png"] w) as [b Hb].
    destruct (run_command ext ["inkscape"; "--export-png"] w) as [r w1].
    simpl in Hb; subst r; simpl.
    exists b; split; reflexivity.
Qed.

Definition is_probe (ev : event) : bool :=
  match ev with
  | EvCall [a; b] => String.eqb a "inkscape" && String.eqb b "--export-png"
  | _ => false
  end.

Lemma run_command_probe_trace ext w :
  count_ev is_probe (trace (snd (run_command ext ["inkscape"; "--export-png"] w)))
  = S (count_ev is_probe (trace w)).
Proof.
  unfold run_command, catch, subprocess_call, bind, emit, modify, ret, raise.
  destruct (ext_call ext ["inkscape"; "--export-png"]); simpl;
    unfold print_stdout, bind, modify, ret; simpl;
    rewrite count_ev_snoc; simpl; lia.
Qed.

(** ** The flags and the cache across [diag] *)

(** The part of [diag] after the availability test. *)
Definition diag_tail ext (cell command : string) : M unit :=
  r <- attempt (mkdtemp ext) ;;
  match r with
  | Err _ => raise (NameError "tmpdir")
  | Ok tmpdir =>
      body <- attempt (diag_body ext tmpdir (cell ++ String "010" EmptyString) command) ;;
      cleanup tmpdir ;;;
      data <- of_result body ;;
      pm <- gets publish_mode ;;
      if String.eqb pm "SVG"
      then publish_display_data (PyStr "IPython.core.displaypub.publish_svg") PyNone
             (PyDict [("image/svg+xml", data)])
      else publish_display_data (PyDict [("image/png", data)]) PyNone
             (PyStr "IPython.core.displaypub.publish_png")
  end.

Lemma diag_split ext line cell command :
  diag ext line cell command =
  (avail <- inkscape_available ext ;;
   (if avail then modify (set_draw_mode "SVG") else ret tt) ;;;
   diag_tail ext cell command).
Proof. reflexivity. Qed.

Definition globals_are (d p : string) (c : option bool) (w : world) : Prop :=
  draw_mode w = d /\ publish_mode w = p /\ inkscape_cache w = c.

Lemma diag_tail_globals ext cell command d p c :
  preserves (globals_are d p c) (diag_tail ext cell command).
Proof.
  unfold diag_tail;
  pres_with ltac:(intros [] H; intros; unfold globals_are in *; simpl in *; exact H).
Qed.

Lemma inkscape_available_modes ext d p :
  preserves (fun w => draw_mode w = d /\ publish_mode w = p) (inkscape_available ext).
Proof. pres_with ltac:(intros [] H; simpl in *; exact H). Qed.

(** ** Probes of the converter *)


Definition probe_bound (k : nat) (w : world) : Prop :=
  count_ev is_probe (trace w)
  + (match inkscape_cache w with None => 1 | Some _ => 0 end) <= k.

Lemma inkscape_available_probe_bound ext k :
  preserves (probe_bound k) (inkscape_available ext).
Proof.
  intros w H; unfold probe_bound in *.
  rewrite inkscape_available_eq.
  destruct (inkscape_cache w) as [b|] eqn:Hc; [simpl; rewrite Hc; exact H|].
  try rewrite Hc in H.
  assert (Ht := run_command_probe_trace ext w).
  destruct (run_command_ok ext ["inkscape"; "--export-png"] w) as [b Hb].
  destruct (run_command ext ["inkscape"; "--export-png"] w) as [[r|e] w1];
    simpl in *; [lia | discriminate Hb].
Qed.
#[local] Hint Resolve inkscape_available_probe_bound : pres.

Lemma exec_op_probe_bound ext k o : preserves (probe_bound k) (exec_op ext o).
Proof.
  pres_with ltac:(intros [] H; intros; unfold probe_bound in *; simpl in *;
                  rewrite ?count_ev_snoc; simpl; lia).
Qed.

(** ** The file system across [diag] *)

(** No two entries for one path, and every file lies in an existing
    directory. *)
Definition fs_wf' (ds : list string) (fs : list (path * string)) : Prop :=
  NoDup (map fst fs) /\ (forall p c, In (p, c) fs -> In (fst p) ds).

Definition fs_wf (w : world) : Prop := fs_wf' (dirs w) (files w).

Definition fs_at (D : list string) (w : world) : Prop :=
  fs_wf w /\ dirs w = D.

Lemma path_eqb_eq p q : path_eqb p q = true <-> p = q.
Proof.
  destruct p as [a b], q as [x y]; unfold path_eqb; simpl.
  rewrite andb_true_iff, !String.eqb_eq; split.
  - intros [-> ->]; reflexivity.
  - intros H; inversion H; auto.
Qed.

Lemma dir_exists_In d ds : dir_exists d ds = true <-> In d ds.
Proof.
  unfold dir_exists; rewrite existsb_exists; split.
  - intros [x [Hx Hd]]; apply String.eqb_eq in Hd; subst; exact Hx.
  - intros H; exists d; split; [exact H | apply String.eqb_refl].
Qed.

Lemma NoDup_map_filter {A B} (f : A -> B) g l :
  NoDup (map f l) -> NoDup (map f (filter g l)).
Proof.
  induction l as [|a l IH]; simpl; intros H; [constructor|].
  inversion H as [|? ? Hn Hl]; subst.
  destruct (g a); simpl; auto.
  constructor; auto.
  intros Hin; apply Hn.
  apply in_map_iff in Hin as [x [Hx Hin]]; apply filter_In in Hin as [Hin _].
  rewrite <- Hx; apply in_map, Hin.
Qed.

Lemma In_file_del q c p fs : In (q, c) (file_del p fs) <-> In (q, c) fs /\ q <> p.
Proof.
  unfold file_del; rewrite filter_In; simpl.
  destruct (path_eqb q p) eqn:E; simpl.
  - apply path_eqb_eq in E; subst; split; [intros [_ H]; discriminate | intros [_ H]; contradiction].
  - split.
    + intros [H _]; split; [exact H|]; intros ->.
      rewrite (proj2 (path_eqb_eq p p) eq_refl) in E; discriminate.
    + intros [H _]; split; [exact H | reflexivity].
Qed.

Lemma fs_wf_file_del ds fs p : fs_wf' ds fs -> fs_wf' ds (file_del p fs).
Proof.
  intros [Hn Hd]; split.
  - apply NoDup_map_filter, Hn.
  - intros q c Hin; apply In_file_del in Hin as [Hin _]; eapply Hd; eauto.
Qed.

Lemma fs_wf_file_put ds fs p c :
  fs_wf' ds fs -> In (fst p) ds -> fs_wf' ds (file_put p c fs).
Proof.
  intros Hw Hp; destruct (fs_wf_file_del ds fs p Hw) as [Hn Hd]; split.
  - simpl; constructor; [|exact Hn].
    intros Hin; apply in_map_iff in Hin as [[q c'] [Hq Hin]]; simpl in Hq; subst q.
    apply In_file_del in Hin as [_ H]; apply H; reflexivity.
  - intros q c' [Heq|Hin]; [inversion Heq; subst; exact Hp | eapply Hd; eauto].
Qed.

Lemma fs_wf_tool_writes ds ws fs : fs_wf' ds fs -> fs_wf' ds (tool_writes ds ws fs).
Proof.
  unfold tool_writes; revert fs; induction ws as [|[p c] ws IH]; intros fs Hw; simpl;
    [exact Hw|].
  apply IH; destruct (dir_exists (fst p) ds) eqn:E; [|exact Hw].
  apply fs_wf_file_put; [exact Hw | apply dir_exists_In, E].
Qed.

(** Closing the state updates of a [preserves (fs_at D)] proof. *)
Ltac fs_close :=
  intros [? ? ? ? ? ? ? ? ? ?] [? ?]; intros;
  unfold fs_at, fs_wf in *; simpl in *;
  repeat match goal with
    | H : (if ?b then _ else _) = None |- _ => destruct b eqn:?; try discriminate H
    | H : match ?x with _ => _ end = None |- _ => destruct x eqn:?; try discriminate H
    end;
  split; [| assumption];
  first [ assumption
        | apply fs_wf_tool_writes; assumption
        | apply fs_wf_file_del; assumption
        | apply fs_wf_file_put; [assumption | apply dir_exists_In; assumption]
        | apply fs_wf_file_put;
          [assumption | apply dir_exists_In, negb_false_iff; assumption] ].

Lemma list_dir_cons d x y c fs :
  list_dir d (((x, y), c) :: fs) =
  if String.eqb x d then y :: list_dir d fs else list_dir d fs.
Proof. unfold list_dir; simpl; destruct (String.eqb x d); reflexivity. Qed.

Lemma In_list_dir d n fs : In n (list_dir d fs) <-> exists c, In ((d, n), c) fs.
Proof.
  unfold list_dir; rewrite in_map_iff; split.
  - intros [[[x y] c] [Hy Hin]]; simpl in Hy; subst y.
    apply filter_In in Hin as [Hin Hx]; simpl in Hx; apply String.eqb_eq in Hx; subst x.
    exists c; exact Hin.
  - intros [c Hin]; exists ((d, n), c); split; [reflexivity|].
    apply filter_In; split; [exact Hin | apply String.eqb_refl].
Qed.

Lemma NoDup_list_dir d fs : NoDup (map fst fs) -> NoDup (list_dir d fs).
Proof.
  induction fs as [|[[x y] c] fs IH]; intros H; [constructor|].
  inversion H as [|? ? Hn Hfs]; subst.
  rewrite list_dir_cons.
  destruct (String.eqb x d) eqn:E; [|apply IH, Hfs].
  constructor; [|apply IH, Hfs].
  apply String.eqb_eq in E; subst x.
  intros Hin; apply Hn.
  apply In_list_dir in Hin as [c' Hin]; apply in_map_iff; exists ((d, y), c'); auto.
Qed.

Lemma set_files_twice v v' w : set_files v (set_files v' w) = set_files v w.
Proof. destruct w; reflexivity. Qed.

Lemma filter_filter {A} (f g : A -> bool) l :
  filter f (filter g l) = filter (fun x => g x && f x) l.
Proof.
  induction l as [|a l IH]; simpl; [reflexivity|].
  destruct (g a); simpl; [destruct (f a)|]; simpl; rewrite ?IH; reflexivity.
Qed.

Lemma unlink_ok p w : (exists c, In (p, c) (files w)) ->
  unlink p w = (Ok tt, set_files (file_del p (files w)) w).
Proof.
  intros [c Hin]; unfold unlink, os_call.
  destruct (file_get p (files w)) eqn:E; [reflexivity|].
  exfalso; unfold file_get in E.
  destruct (find (fun e => path_eqb (fst e) p) (files w)) as [[q c']|] eqn:F;
    [discriminate|].
  pose proof (find_none _ _ F (p, c) Hin) as Hf; simpl in Hf.
  rewrite (proj2 (path_eqb_eq p p) eq_refl) in Hf; discriminate.
Qed.

(** The entries the [finally] loop leaves: those not listed in [d]. *)
Definition unlinked (d : string) (ns : list string) (e : path * string) : bool :=
  negb (String.eqb (fst (fst e)) d && existsb (String.eqb (snd (fst e))) ns).

Lemma for_each_unlink d ns w :
  NoDup ns -> (forall n, In n ns -> exists c, In ((d, n), c) (files w)) ->
  for_each ns (fun file => unlink (d, file)) w
  = (Ok tt, set_files (filter (unlinked d ns) (files w)) w).
Proof.
  revert w; induction ns as [|n ns IH]; intros w Hnd Hex; simpl.
  - assert (Hf : forall l, filter (unlinked d []) l = l).
    { induction l as [|e l IHl]; simpl; [reflexivity|].
      unfold unlinked at 1; simpl; rewrite andb_false_r; simpl; rewrite IHl; reflexivity. }
    rewrite Hf; destruct w; reflexivity.
  - inversion Hnd as [|? ? Hn Hns]; subst.
    rewrite (bind_ok _ _ _ tt _ (unlink_ok (d, n) w (Hex n (or_introl eq_refl)))).
    rewrite IH; [| exact Hns |].
    + rewrite set_files_twice; cbn [files set_files]; f_equal; f_equal.
      unfold file_del; rewrite filter_filter; apply filter_ext.
      intros [[x y] c]; unfold unlinked, path_eqb; simpl.
      destruct (String.eqb x d), (String.eqb y n), (existsb (String.eqb y) ns);
        reflexivity.
    + intros m Hm; destruct (Hex m (or_intror Hm)) as [c Hc]; exists c.
      cbn [files set_files]; apply In_file_del; split; [exact Hc|].
      intros Heq; inversion Heq; subst; contradiction.
Qed.

Lemma listdir_ok d w : In d (dirs w) -> listdir d w = (Ok (list_dir d (files w)), w).
Proof.
  intros H; unfold listdir, bind, os_call, gets; cbv beta.
  apply dir_exists_In in H; rewrite H; reflexivity.
Qed.

Lemma rmdir_ok d w : In d (dirs w) -> list_dir d (files w) = [] ->
  rmdir d w = (Ok tt, set_dirs (remove string_dec d (dirs w)) w).
Proof.
  intros H1 H2; unfold rmdir, os_call.
  apply dir_exists_In in H1; rewrite H1, H2; reflexivity.
Qed.

(** The [finally] clause removes a fresh temporary directory and its files. *)
Lemma cleanup_fs d D w : fs_at (d :: D) w -> ~ In d D ->
  fst (cleanup d w) = Ok tt /\ fs_at D (snd (cleanup d w)).
Proof.
  intros [[Hn Hd] HD] Hnot.
  assert (Hdw : In d (dirs w)) by (rewrite HD; left; reflexivity).
  unfold cleanup.
  rewrite (bind_ok _ _ _ _ _ (listdir_ok d w Hdw)).
  rewrite (bind_ok _ _ _ tt _
             (for_each_unlink d (list_dir d (files w)) w (NoDup_list_dir d _ Hn)
                (fun n H => proj1 (In_list_dir d n (files w)) H))).
  set (F := filter (unlinked d (list_dir d (files w))) (files w)).
  assert (Hgone : forall p c, In (p, c) F -> fst p <> d).
  { intros [x y] c Hin Hx; simpl in Hx; subst x.
    unfold F in Hin; apply filter_In in Hin as [Hin Hu].
    unfold unlinked in Hu; simpl in Hu; rewrite String.eqb_refl in Hu; simpl in Hu.
    assert (Hx : existsb (String.eqb y) (list_dir d (files w)) = true).
    { apply existsb_exists; exists y; split;
        [apply In_list_dir; eauto | apply String.eqb_refl]. }
    rewrite Hx in Hu; discriminate. }
  assert (Hempty : list_dir d F = []).
  { destruct (list_dir d F) as [|n ns] eqn:E; [reflexivity|].
    exfalso; assert (Hin : In n (list_dir d F)) by (rewrite E; left; reflexivity).
    apply In_list_dir in Hin as [c Hin].
    exact (Hgone _ _ Hin eq_refl). }
  rewrite (rmdir_ok d (set_files F w) Hdw Hempty).
  split; [reflexivity|].
  unfold fs_at, fs_wf; cbn [dirs files set_dirs set_files]; rewrite HD.
  rewrite remove_cons, (notin_remove string_dec D d Hnot).
  split; [split|reflexivity].
  - apply NoDup_map_filter, Hn.
  - intros p c Hin.
    assert (Hp := Hgone p c Hin).
    unfold F in Hin; apply filter_In in Hin as [Hin _].
    specialize (Hd p c Hin); rewrite HD in Hd.
    destruct Hd as [Hd|Hd]; [symmetry in Hd; contradiction | exact Hd].
Qed.

Lemma bind_attempt {A B} (m : M A) (k : result A -> M B) w :
  bind (attempt m) k w = k (fst (m w)) (snd (m w)).
Proof. unfold bind, attempt; destruct (m w); reflexivity. Qed.

Lemma mkdtemp_fs ext D w : fs_at D w ->
  match fst (mkdtemp ext w) with
  | Ok d => fs_at (d :: D) (snd (mkdtemp ext w)) /\ ~ In d D
  | Err _ => fs_at D (snd (mkdtemp ext w))
  end.
Proof.
  intros [[Hn Hd] HD].
  unfold mkdtemp, fresh_name, bind, gets, modify, ret, raise, os_call; cbv beta.
  destruct (ext_mkdtemp ext (tmp_counter w)) as [d|]; cbn.
  - destruct (existsb (String.eqb d) (dirs w)) eqn:E; cbn.
    + unfold fs_at, fs_wf, fs_wf'; cbn; auto.
    + split.
      * unfold fs_at, fs_wf; cbn; rewrite HD; split; [split|reflexivity].
        -- exact Hn.
        -- intros p c Hin; right; rewrite <- HD; eapply Hd; eauto.
      * intros Hin; rewrite <- HD in Hin; apply dir_exists_In in Hin.
        unfold dir_exists in Hin; congruence.
  - unfold fs_at, fs_wf, fs_wf'; cbn; auto.
Qed.

Lemma diag_body_fs ext d code command D :
  preserves (fs_at D) (diag_body ext d code command).
Proof. pres_with fs_close. Qed.

Lemma diag_tail_fs ext cell command D : preserves (fs_at D) (diag_tail ext cell command).
Proof.
  intros w Hw; unfold diag_tail; rewrite bind_attempt; cbv beta.
  pose proof (mkdtemp_fs ext D w Hw) as Hm.
  destruct (mkdtemp ext w) as [[d|e] w1]; cbn in Hm |- *; [|exact Hm].
  destruct Hm as [Hw1 Hnot].
  rewrite bind_attempt; cbv beta.
  pose proof (diag_body_fs ext d (cell ++ String "010" EmptyString) command (d :: D) w1 Hw1)
    as Hw2.
  destruct (diag_body ext d (cell ++ String "010" EmptyString) command w1) as [r2 w2];
    cbn in Hw2 |- *.
  destruct (cleanup_fs d D w2 Hw2 Hnot) as [Hc Hw3].
  destruct (cleanup d w2) as [r w3] eqn:Ec; cbn in Hc, Hw3; subst r.
  rewrite (bind_ok _ _ _ _ _ Ec); cbv beta.
  match goal with
  | |- fs_at D (snd (?m w3)) =>
      assert (Hp : preserves (fs_at D) m) by (pres_with fs_close); exact (Hp w3 Hw3)
  end.
Qed.
#[local] Hint Resolve diag_tail_fs : pres.

(** ** Events of a render *)

Definition svg2png_args (p : path) : list string :=
  ["inkscape"; path_str p ++ ".svg"; "--export-png=" ++ path_str p ++ ".png"].

Definition render_ok (r : render_result) : bool :=
  match r with RenderRaised => false | RenderDone _ => true end.

(** The trace, the draw mode and the publish mode are [t], [dm] and [pm]. *)
Definition tf (t : list event) (dm pm : string) (w : world) : Prop :=
  trace w = t /\ draw_mode w = dm /\ publish_mode w = pm.

Ltac tf_close := intros [] H; intros; unfold tf in *; simpl in *; exact H.

Lemma mkstemp_tf ext d t dm pm : preserves (tf t dm pm) (mkstemp ext d).
Proof. pres_with tf_close. Qed.

Lemma write_file_tf p c t dm pm : preserves (tf t dm pm) (write_file p c).
Proof. pres_with tf_close. Qed.

Lemma mkdtemp_tf ext t dm pm : preserves (tf t dm pm) (mkdtemp ext).
Proof. pres_with tf_close. Qed.

Lemma cleanup_tf d t dm pm : preserves (tf t dm pm) (cleanup d).
Proof. pres_with tf_close. Qed.

Lemma bind_eq {A B} (m : M A) (k : A -> M B) w :
  bind m k w = match m w with
               | (Ok a, w') => k a w'
               | (Err e, w') => (Err e, w')
               end.
Proof. reflexivity. Qed.

Lemma bind_gets {A B} (f : world -> A) (k : A -> M B) w :
  bind (gets f) k w = k (f w) w.
Proof. reflexivity. Qed.

Lemma command_main_eq ext command argv w :
  command_main ext command argv w =
  match ext_render ext command argv with
  | RenderRaised => (Err RendererError, set_trace ((trace w ++ [EvRender command argv])%list) w)
  | RenderDone ws =>
      (Ok tt, let w1 := set_trace ((trace w ++ [EvRender command argv])%list) w in
              set_files (tool_writes (dirs w1) ws (files w1)) w1)
  end.
Proof.
  unfold command_main, emit, bind, modify, raise.
  destruct (ext_render ext command argv); reflexivity.
Qed.

Lemma svg2png_eq ext p w :
  exists w', svg2png ext p w = (Ok tt, w') /\
    trace w' = (trace w ++ [EvCall (svg2png_args p)])%list /\
    draw_mode w' = draw_mode w /\ publish_mode w' = publish_mode w.
Proof.
  unfold svg2png, run_command, catch, subprocess_call, bind, emit, modify, ret, raise,
    print_stdout.
  destruct (ext_call ext _); cbn; eexists; repeat split.
Qed.

Lemma read_file_eq p w :
  read_file p w = match file_get p (files w) with
                  | None => (Err (OSError "No such file or directory"), w)
                  | Some c => (Ok c, set_trace ((trace w ++ [EvRead p c])%list) w)
                  end.
Proof. unfold read_file, bind, gets, emit, modify, ret, raise; destruct (file_get p (files w)); reflexivity. Qed.

(** What a run of [diag_body] emits: nothing when it fails before the
    renderer; otherwise the render, the conversion when the renderer
    returned and the modes ask for it, and the read of the output file. *)
Lemma diag_body_spec ext d code command w r w' :
  diag_body ext d code command w = (r, w') ->
  draw_mode w' = draw_mode w /\ publish_mode w' = publish_mode w /\
  ((trace w' = trace w /\ exists e, r = Err e) \/
   exists p argv,
     let conv := render_ok (ext_render ext command argv)
                 && String.eqb (draw_mode w) "SVG" && String.eqb (publish_mode w) "PNG" in
     let t := (trace w ++ EvRender command argv
                 :: (if conv then [EvCall (svg2png_args p)] else []))%list in
     (trace w' = t /\ exists e, r = Err e) \/
     (render_ok (ext_render ext command argv) = true /\
      exists data,
        trace w' = (t ++ [EvRead (path_append p ("." ++ lower (publish_mode w))) data])%list
        /\ r = Ok data)).
Proof.
  intros E; unfold diag_body in E; rewrite bind_eq in E.
  pose proof (mkstemp_tf ext d (trace w) (draw_mode w) (publish_mode w) w
                (conj eq_refl (conj eq_refl eq_refl))) as F1.
  destruct (mkstemp ext d w) as [[p|e] w1]; cbn in F1; destruct F1 as [T1 [D1 P1]];
    [| inversion E; subst; split; [|split]; auto; left; split; eauto].
  rewrite bind_eq in E.
  pose proof (write_file_tf p code (trace w) (draw_mode w) (publish_mode w) w1
                (conj T1 (conj D1 P1))) as F2.
  destruct (write_file p code w1) as [[u|e] w2]; cbn in F2; destruct F2 as [T2 [D2 P2]];
    [| inversion E; subst; split; [|split]; auto; left; split; eauto].
  rewrite !bind_gets in E; cbv beta zeta in E.
  rewrite bind_eq, command_main_eq in E.
  rewrite D2 in E.
  set (argv := if String.eqb (draw_mode w) "SVG"
               then ([path_str p; "-T"; lower (draw_mode w); "-o";
                      path_str (path_append p ("." ++ lower (draw_mode w)))] ++ [""])%list
               else [path_str p; "-T"; lower (draw_mode w); "-o";
                     path_str (path_append p ("." ++ lower (draw_mode w)))]) in E.
  destruct (ext_render ext command argv) as [|ws] eqn:ER.
  - inversion E; subst; cbn; split; [|split]; auto.
    right; exists p, argv; left; rewrite ER; cbn; rewrite T2; split; eauto.
  - cbv zeta in E.
    match type of E with
    | context [set_files ?a ?b] => set (w3 := set_files a b) in E
    end.
    assert (T3 : trace w3 = (trace w ++ [EvRender command argv])%list)
      by (unfold w3; cbn; rewrite T2; reflexivity).
    assert (D3 : draw_mode w3 = draw_mode w) by (unfold w3; cbn; exact D2).
    assert (P3 : publish_mode w3 = publish_mode w) by (unfold w3; cbn; exact P2).
    clearbody w3.
    rewrite !bind_gets in E; cbv beta in E; rewrite D3, P3 in E.
    destruct (String.eqb (draw_mode w) "SVG" && String.eqb (publish_mode w) "PNG") eqn:C.
    + rewrite bind_eq in E.
      destruct (svg2png_eq ext p w3) as [w4 [E4 [T4 [D4 P4]]]].
      rewrite E4 in E; cbv beta iota in E.
      rewrite bind_gets in E; cbv beta in E; rewrite P4, P3 in E.
      rewrite read_file_eq in E.
      destruct (file_get _ (files w4)) as [c|]; inversion E; subst; cbn;
        (split; [|split]); try congruence;
        right; exists p, argv; cbv zeta; rewrite ER; cbn [render_ok andb]; rewrite C.
      * right; split; [reflexivity|]; exists c; split; [|reflexivity].
        rewrite T4, T3, <- !app_assoc; reflexivity.
      * left; split; [rewrite T4, T3, <- !app_assoc; reflexivity | eauto].
    + rewrite bind_eq in E; unfold ret in E; cbv beta iota in E.
      rewrite bind_gets in E; cbv beta in E; rewrite P3 in E.
      rewrite read_file_eq in E.
      destruct (file_get _ (files w3)) as [c|]; inversion E; subst; cbn;
        (split; [|split]); try congruence;
        right; exists p, argv; cbv zeta; rewrite ER; cbn [render_ok andb]; rewrite C.
      * right; split; [reflexivity|]; exists c; split; [|reflexivity].
        rewrite T3, <- !app_assoc; reflexivity.
      * left; split; [rewrite T3; reflexivity | eauto].
Qed.



Lemma count_ev_app f l l' : count_ev f (l ++ l') = count_ev f l + count_ev f l'.
Proof. unfold count_ev; rewrite filter_app, length_app; reflexivity. Qed.






Lemma skipn_length_app {A} (l l' : list A) : skipn (length l) (l ++ l') = l'.
Proof. induction l; simpl; auto. Qed.


(** ** Concrete worlds *)

(** A machine where the probe of the converter ends with [probe], the
    conversion exits with 0 and writes its PNG file, the renderer writes the
    file named after [-o], and [tempfile] draws the names [tmpd] and [diag]. *)
Definition sample_externals (probe : call_result) : externals :=
  mkExternals
    (fun args => match args with
       | [_; _] => probe
       | _ => CallExited 0 [(("/tmp/tmpd", "diag.png"), "PNG-FROM-SVG")]
       end)
    (fun command argv => match argv with
       | [_; _; "svg"; _; _; _] => RenderDone [(("/tmp/tmpd", "diag.svg"), "SVG")]
       | [_; _; "png"; _; _] => RenderDone [(("/tmp/tmpd", "diag.png"), "PNG")]
       | _ => RenderRaised
       end)
    (fun _ => Some "/tmp/tmpd")
    (fun _ => Some "diag")
    (fun _ => true).

Definition sample_world : world := module_init ["/tmp"] [].

(** * The claims *)

(** Claim C5: running [setdiagsvg] and then [setdiagpng] leaves both the
    draw-mode and the publish-mode flag equal to ['PNG']. *)
Theorem setdiagsvg_then_setdiagpng_png l1 l2 w :
  let w' := snd ((setdiagsvg l1 ;;; setdiagpng l2) w) in
  draw_mode w' = "PNG" /\ publish_mode w' = "PNG".
Proof. split; reflexivity. Qed.

(** Claim C8: in a process that imported the module, after any sequence of
    commands (loading the extension, cell magics, toggles; each one returning
    or raising), the draw-mode and publish-mode flags are each ['PNG'] or
    ['SVG']. *)
Theorem format_flags_always_legal ext ops ds fs :
  let w := run_ops ext ops (module_init ds fs) in
  (draw_mode w = "PNG" \/ draw_mode w = "SVG") /\
  (publish_mode w = "PNG" \/ publish_mode w = "SVG").
Proof.
  apply (run_ops_preserves flags_legal ext ops (exec_op_flags_legal ext)).
  split; left; reflexivity.
Qed.

(** Claim C10: loading the extension registers [BlockdiagMagics] with the
    host once: in a process that imported the module, after any sequence of
    commands the host has seen one registration if the sequence loads the
    extension at least once and none otherwise; and once loaded, a call of
    [load_ipython_extension] changes nothing. *)
Theorem load_ipython_extension_registers_once ext ops ds fs :
  count_ev is_register (trace (run_ops ext ops (module_init ds fs))) =
    (if existsb is_load ops then 1 else 0)
  /\ (forall w, loaded w = true -> load_ipython_extension w = (Ok tt, w)).
Proof.
  split.
  - destruct (run_ops_loaded ext ops (module_init ds fs)) as [_ H].
    rewrite H; reflexivity.
  - intros w Hw; unfold load_ipython_extension, bind, gets; rewrite Hw; reflexivity.
Qed.

Lemma load_ipython_extension_registers_once_witness :
  count_ev is_register
    (trace (run_ops (sample_externals (CallExited 0 [])) [OpLoad; OpLoad] sample_world)) = 1 /\
  load_ipython_extension (set_loaded true sample_world) = (Ok tt, set_loaded true sample_world).
Proof.
  destruct (load_ipython_extension_registers_once (sample_externals (CallExited 0 []))
              [OpLoad; OpLoad] ["/tmp"] []) as [H1 H2].
  split; [exact H1 | apply H2; reflexivity].
Defined.

(** Claim C1 (as stated): [diag] leaves both flags unchanged.  It does not:
    with the converter available, a render in the default ['PNG'] mode sets
    the draw-mode flag to ['SVG']. *)
Lemma diag_changes_draw_mode :
  ~ (forall ext line cell command w,
        draw_mode (snd (diag ext line cell command w)) = draw_mode w /\
        publish_mode (snd (diag ext line cell command w)) = publish_mode w).
Proof.
  intros H.
  destruct (H (sample_externals (CallExited 0 [])) "" "A -> B;" "blockdiag.command"
              sample_world) as [Hd _].
  vm_compute in Hd; discriminate Hd.
Qed.

(** [diag] never changes the publish-mode flag; it changes the draw-mode
    flag only by setting it to ['SVG'] when the (cached) probe reports the
    converter available, whether it returns or raises. *)
Lemma diag_flags ext line cell command w :
  let w' := snd (diag ext line cell command w) in
  publish_mode w' = publish_mode w /\
  ((inkscape_cache w' = Some true /\ draw_mode w' = "SVG") \/
   (inkscape_cache w' = Some false /\ draw_mode w' = draw_mode w)).
Proof.
  cbv zeta; rewrite diag_split.
  destruct (inkscape_available_result ext w) as [b [Hr Hc]].
  destruct (inkscape_available_modes ext (draw_mode w) (publish_mode w) w
              (conj eq_refl eq_refl)) as [Hd Hp].
  destruct (inkscape_available ext w) as [r w1] eqn:E; simpl in Hr, Hc, Hd, Hp; subst r.
  rewrite (bind_ok _ _ _ _ _ E).
  destruct b.
  - rewrite (bind_ok (modify (set_draw_mode "SVG")) _ w1 tt _ eq_refl); cbv beta.
    destruct (diag_tail_globals ext cell command "SVG" (publish_mode w1) (Some true)
                (set_draw_mode "SVG" w1)) as [H1 [H2 H3]];
      [unfold globals_are; simpl; auto|].
    rewrite H1, H2, H3, Hp; auto.
  - rewrite (bind_ok (ret tt) _ w1 tt _ eq_refl); cbv beta.
    destruct (diag_tail_globals ext cell command (draw_mode w1) (publish_mode w1)
                (Some false) w1) as [H1 [H2 H3]];
      [unfold globals_are; auto|].
    rewrite H1, H2, H3, Hp, Hd; auto.
Qed.

(** Claim C1 (amended): the two flags are changed only by [setdiagsvg]
    (both to ['SVG']), [setdiagpng] (both to ['PNG']) and [diag];
    [load_ipython_extension] and a cell magic whose renderer import fails
    leave them unchanged.  [diag] never changes the publish-mode flag and
    changes the draw-mode flag only by setting it to ['SVG'] when the
    (cached) probe reports the converter available, leaving it unchanged
    otherwise, whether it returns or raises. *)
Theorem flags_mutation_frame ext :
  (forall line cell command w,
     let w' := snd (diag ext line cell command w) in
     publish_mode w' = publish_mode w /\
     ((inkscape_cache w' = Some true /\ draw_mode w' = "SVG") \/
      (inkscape_cache w' = Some false /\ draw_mode w' = draw_mode w))) /\
  (forall o w,
     let w' := snd (exec_op ext o w) in
     match o with
     | OpSetSvg _ => draw_mode w' = "SVG" /\ publish_mode w' = "SVG"
     | OpSetPng _ => draw_mode w' = "PNG" /\ publish_mode w' = "PNG"
     | OpLoad => draw_mode w' = draw_mode w /\ publish_mode w' = publish_mode w
     | OpCell m line cell =>
         if ext_import ext (magic_module m)
         then w' = snd (diag ext line cell (magic_module m) w)
         else draw_mode w' = draw_mode w /\ publish_mode w' = publish_mode w
     end).
Proof.
  split; [exact (diag_flags ext)|].
  intros [|m line cell|line|line] w; cbn [exec_op].
  - unfold load_ipython_extension, bind, gets; cbv beta.
    destruct (loaded w); cbn; split; reflexivity.
  - unfold cell_magic; destruct (ext_import ext (magic_module m)); cbn;
      [reflexivity | split; reflexivity].
  - split; reflexivity.
  - split; reflexivity.
Qed.

(** Claim C3: for every run of [diag] from a well-formed file system, the
    temporary directory it creates is gone when it returns or raises: the
    set of directories is the one before the call, and every file left lies
    in one of those directories, so none is left in the temporary one. *)
Theorem diag_removes_tmpdir ext line cell command w :
  fs_wf w ->
  let w' := snd (diag ext line cell command w) in
  dirs w' = dirs w /\ fs_wf w'.
Proof.
  intros Hw; cbv zeta.
  assert (H : preserves (fs_at (dirs w)) (diag ext line cell command)).
  { rewrite diag_split; pres_with fs_close. }
  destruct (H w (conj Hw eq_refl)) as [H1 H2]; split; [exact H2 | exact H1].
Qed.

Lemma diag_removes_tmpdir_witness :
  let w' := snd (diag (sample_externals (CallExited 0 [])) "" "A -> B;" "blockdiag.command"
                   sample_world) in
  dirs w' = dirs sample_world /\ fs_wf w'.
Proof.
  apply diag_removes_tmpdir.
  split; [constructor | intros p c []].
Defined.



(** Claim C2 (a defect): a probe whose [inkscape] runs and exits with 1 still
    records the converter as available, because [subprocess.call] returns
    the exit code instead of raising [CalledProcessError]. *)
Theorem inkscape_probe_nonzero_exit_available :
  inkscape_available (sample_externals (CallExited 1 [])) sample_world
  = (Ok true, set_trace [EvCall ["inkscape"; "--export-png"]]
                (set_inkscape_cache (Some true) sample_world)).
Proof. vm_compute; reflexivity. Qed.

(** Claim C4: the first call of [inkscape_available] runs the probe once and
    stores its boolean result; a later call returns the stored result, true
    or false, without running it; and over any sequence of commands in a
    process the probe runs at most once. *)
Theorem inkscape_available_probes_once ext :
  (forall w, inkscape_cache w = None ->
     exists b, fst (inkscape_available ext w) = Ok b /\
       inkscape_cache (snd (inkscape_available ext w)) = Some b /\
       count_ev is_probe (trace (snd (inkscape_available ext w)))
         = S (count_ev is_probe (trace w)))
  /\ (forall w b, inkscape_cache w = Some b -> inkscape_available ext w = (Ok b, w))
  /\ (forall ops ds fs,
        count_ev is_probe (trace (run_ops ext ops (module_init ds fs))) <= 1).
Proof.
  split; [|split].
  - intros w Hc.
    destruct (inkscape_available_result ext w) as [b [Hr Hb]].
    exists b; split; [exact Hr|]; split; [exact Hb|].
    rewrite inkscape_available_eq, Hc.
    assert (Ht := run_command_probe_trace ext w).
    destruct (run_command ext ["inkscape"; "--export-png"] w) as [[r|e] w1];
      simpl in *; exact Ht.
  - intros w b Hc; rewrite inkscape_available_eq, Hc; reflexivity.
  - intros ops ds fs.
    assert (H := run_ops_preserves (probe_bound 1) ext ops (exec_op_probe_bound ext 1)
                   (module_init ds fs) (le_n 1)).
    unfold probe_bound in H; lia.
Qed.

Lemma inkscape_available_probes_once_witness :
  inkscape_available (sample_externals (CallExited 0 [])) (set_inkscape_cache (Some false) sample_world)
  = (Ok false, set_inkscape_cache (Some false) sample_world).
Proof.
  exact (proj1 (proj2 (inkscape_available_probes_once (sample_externals (CallExited 0 []))))
           (set_inkscape_cache (Some false) sample_world) false eq_refl).
Defined.

(** Claim C6 (a defect): [run_command] on a missing executable prints its
    diagnostic to standard output, not standard error; and on an exit with
    1 it prints nothing and returns [True]. *)
Theorem run_command_failure_reports :
  run_command (sample_externals (CallNotFound "[Errno 2] No such file or directory"))
    ["inkscape"; "--export-png"] sample_world
  = (Ok false,
     set_stdout ["Exception [Errno 2] No such file or directory"]
       (set_trace [EvCall ["inkscape"; "--export-png"]] sample_world))
  /\ run_command (sample_externals (CallExited 1 [])) ["inkscape"; "--export-png"] sample_world
  = (Ok true, set_trace [EvCall ["inkscape"; "--export-png"]] sample_world).
Proof. split; vm_compute; reflexivity. Qed.

End Claims.

(** * Further properties of the module *)

Module Extras.
Import Diagmagic Frame Claims.

(** ** Definitions used by the statements *)

Definition is_publish (ev : event) : bool :=
  match ev with EvPublish _ _ _ => true | _ => false end.

Definition is_render (ev : event) : bool :=
  match ev with EvRender _ _ => true | _ => false end.

(** The arguments [diag] passes to [command.main] (lines 104-116) for the
    temporary file [p] and the draw mode [dm]. *)
Definition render_argv (p : path) (dm : string) : list string :=
  let format := lower dm in
  ([path_str p; "-T"; format; "-o"; path_str (path_append p ("." ++ format))]
   ++ (if String.eqb dm "SVG" then [""] else []))%list.

(** The combinations of the two flags and the cached probe that the module
    can be in. *)
Definition modes_ok (w : world) : Prop :=
  (draw_mode w = "PNG" /\ publish_mode w = "PNG") \/
  (draw_mode w = "SVG" /\ publish_mode w = "SVG") \/
  (draw_mode w = "SVG" /\ publish_mode w = "PNG" /\ inkscape_cache w = Some true).

(** The trace starts with [t]. *)
Definition extends (t : list event) (w : world) : Prop :=
  exists rest, trace w = (t ++ rest)%list.

(** A small machine for the [finally] clause: one temporary directory with a
    file, next to a file of [/tmp]. *)
Definition cleanup_world : world :=
  module_init ["/tmp/tmpd"; "/tmp"] [(("/tmp/tmpd", "diag"), "x"); (("/tmp", "keep"), "y")].

(** ** Helper lemmas *)

Lemma run_command_eq ext args w :
  run_command ext args w =
  match ext_call ext args with
  | CallNotFound msg =>
      (Ok false, set_stdout (stdout w ++ [String.append "Exception " msg])%list
                   (set_trace (trace w ++ [EvCall args])%list w))
  | CallExited _ ws =>
      (Ok true, let w1 := set_trace (trace w ++ [EvCall args])%list w in
                set_files (tool_writes (dirs w1) ws (files w1)) w1)
  end.
Proof.
  unfold run_command, catch, subprocess_call, bind, emit, modify, ret, raise,
    print_stdout.
  destruct (ext_call ext args); reflexivity.
Qed.

Lemma inkscape_available_keeps ext b :
  preserves (fun w => inkscape_cache w = Some b) (inkscape_available ext).
Proof. intros w H; rewrite inkscape_available_eq, H; exact H. Qed.

#[local] Hint Resolve inkscape_available_keeps : pres.

Lemma exec_op_keeps_cache ext o b :
  preserves (fun w => inkscape_cache w = Some b) (exec_op ext o).
Proof. pres_with ltac:(intros [] H; intros; cbn in *; exact H). Qed.

(** Property X1: [run_command] never raises.  It calls [subprocess.call]
    once; it returns [False] exactly when the executable is missing and
    [True] for every exit code; it never writes to standard error. *)
Theorem run_command_never_raises ext args w :
  let r := fst (run_command ext args w) in
  let w' := snd (run_command ext args w) in
  ((r = Ok false /\ exists msg, ext_call ext args = CallNotFound msg) \/
   (r = Ok true /\ exists code ws, ext_call ext args = CallExited code ws)) /\
  trace w' = (trace w ++ [EvCall args])%list /\ stderr w' = stderr w.
Proof.
  cbv zeta; rewrite run_command_eq.
  destruct (ext_call ext args) as [msg|code ws]; cbn;
    (split; [|split; reflexivity]); [left|right]; eauto.
Qed.

(** Property X2: [svg2png] never raises, whatever [inkscape] does: it
    returns after exactly one call [inkscape <file>.svg
    --export-png=<file>.png]. *)
Theorem svg2png_never_raises ext p w :
  exists w', svg2png ext p w = (Ok tt, w') /\
    trace w' = (trace w ++ [EvCall (svg2png_args p)])%list.
Proof.
  destruct (svg2png_eq ext p w) as [w' [E [T _]]]; exists w'; split; assumption.
Qed.

(** Property X3: once the probe result [_inkscape_available] is recorded,
    no command of the module changes it. *)
Theorem inkscape_cache_stays ext ops w b :
  inkscape_cache w = Some b -> inkscape_cache (run_ops ext ops w) = Some b.
Proof.
  intros H; exact (run_ops_preserves _ ext ops (fun o => exec_op_keeps_cache ext o b) w H).
Qed.

Lemma inkscape_cache_stays_witness :
  inkscape_cache (set_inkscape_cache (Some false) sample_world) = Some false /\
  inkscape_cache (run_ops (sample_externals (CallExited 0 []))
                    [OpLoad; OpCell Blockdiag "" "A -> B;"; OpSetSvg ""]
                    (set_inkscape_cache (Some false) sample_world)) = Some false.
Proof.
  split; [reflexivity|].
  apply inkscape_cache_stays; reflexivity.
Defined.

Lemma diag_modes_ok ext line cell command : preserves modes_ok (diag ext line cell command).
Proof.
  intros w H; rewrite diag_split.
  destruct (inkscape_available_result ext w) as [b [Hr Hc]].
  destruct (inkscape_available_modes ext (draw_mode w) (publish_mode w) w
              (conj eq_refl eq_refl)) as [Hd Hp].
  assert (Hk : inkscape_cache w = Some true -> b = true).
  { intros Hc0; rewrite inkscape_available_eq, Hc0 in Hr; cbn in Hr; congruence. }
  destruct (inkscape_available ext w) as [r w1] eqn:E; cbn in Hr, Hc, Hd, Hp; subst r.
  rewrite (bind_ok _ _ _ _ _ E).
  destruct b.
  - rewrite (bind_ok (modify (set_draw_mode "SVG")) _ w1 tt _ eq_refl); cbv beta.
    destruct (diag_tail_globals ext cell command "SVG" (publish_mode w1) (Some true)
                (set_draw_mode "SVG" w1)) as [H1 [H2 H3]];
      [unfold globals_are; cbn; auto|].
    unfold modes_ok; rewrite H1, H2, H3, Hp.
    destruct H as [[_ ->]|[[_ ->]|[_ [-> _]]]]; [right; right | right; left | right; right];
      auto.
  - rewrite (bind_ok (ret tt) _ w1 tt _ eq_refl); cbv beta.
    destruct (diag_tail_globals ext cell command (draw_mode w1) (publish_mode w1)
                (Some false) w1) as [H1 [H2 H3]];
      [unfold globals_are; auto|].
    unfold modes_ok; rewrite H1, H2, H3, Hp, Hd.
    destruct H as [H|[H|[_ [_ Hc0]]]]; [left; exact H | right; left; exact H |].
    specialize (Hk Hc0); discriminate Hk.
Qed.

Lemma exec_op_modes_ok ext o : preserves modes_ok (exec_op ext o).
Proof.
  destruct o as [|m line cell|line|line]; cbn [exec_op].
  - pres_with ltac:(intros [] H; intros; unfold modes_ok in *; cbn in *; exact H).
  - unfold cell_magic; destruct (ext_import ext (magic_module m));
      [apply diag_modes_ok | apply preserves_raise].
  - intros w _; unfold setdiagsvg, modify, modes_ok; cbn; auto.
  - intros w _; unfold setdiagpng, modify, modes_ok; cbn; auto.
Qed.

(** Property X5: in every state the module reaches from its import, the
    publish mode ['SVG'] comes with the draw mode ['SVG'] (so [diag] never
    reads an SVG file that was drawn as PNG), and the draw mode ['SVG'] with
    the publish mode ['PNG'] only once the probe recorded [inkscape] as
    available. *)
Theorem reachable_modes ext ops ds fs :
  let w := run_ops ext ops (module_init ds fs) in
  (publish_mode w = "SVG" -> draw_mode w = "SVG") /\
  (draw_mode w = "SVG" -> publish_mode w = "PNG" -> inkscape_cache w = Some true).
Proof.
  cbv zeta.
  destruct (run_ops_preserves modes_ok ext ops (exec_op_modes_ok ext) (module_init ds fs)
              (or_introl (conj eq_refl eq_refl))) as [[-> ->]|[[-> ->]|[-> [-> ->]]]];
    split; intros; try discriminate; auto.
Qed.

(** Property X6: the [finally] clause of [diag], on an existing directory
    [d] that has no subdirectory, of a file system that lists each file
    once, never raises; it deletes exactly the files of [d] and then [d]
    itself, and leaves every other file with its contents. *)
Theorem cleanup_removes_dir_and_its_files d w :
  In d (dirs w) -> NoDup (map fst (files w)) ->
  (forall d', In d' (dirs w) -> String.prefix (d ++ "/") d' = false) ->
  cleanup d w =
  (Ok tt, set_dirs (remove string_dec d (dirs w))
            (set_files (filter (fun e => negb (String.eqb (fst (fst e)) d)) (files w)) w)).
Proof.
  intros Hdw Hn _; unfold cleanup.
  rewrite (bind_ok _ _ _ _ _ (listdir_ok d w Hdw)).
  rewrite (bind_ok _ _ _ tt _
             (for_each_unlink d (list_dir d (files w)) w (NoDup_list_dir d _ Hn)
                (fun n H => proj1 (In_list_dir d n (files w)) H))).
  assert (HF : filter (unlinked d (list_dir d (files w))) (files w)
               = filter (fun e => negb (String.eqb (fst (fst e)) d)) (files w)).
  { apply filter_ext_in; intros [[x y] c] Hin; unfold unlinked; cbn.
    destruct (String.eqb x d) eqn:Ex; cbn; [|reflexivity].
    apply String.eqb_eq in Ex; subst x.
    assert (Hy : existsb (String.eqb y) (list_dir d (files w)) = true).
    { apply existsb_exists; exists y; split;
        [apply In_list_dir; eauto | apply String.eqb_refl]. }
    rewrite Hy; reflexivity. }
  rewrite HF.
  set (F := filter (fun e => negb (String.eqb (fst (fst e)) d)) (files w)).
  assert (Hempty : list_dir d F = []).
  { destruct (list_dir d F) as [|n ns] eqn:E; [reflexivity|].
    exfalso; assert (Hin : In n (list_dir d F)) by (rewrite E; left; reflexivity).
    apply In_list_dir in Hin as [c Hin].
    unfold F in Hin; apply filter_In in Hin as [_ Hx]; cbn in Hx.
    rewrite String.eqb_refl in Hx; discriminate Hx. }
  rewrite (rmdir_ok d (set_files F w) Hdw Hempty); reflexivity.
Qed.

Lemma cleanup_removes_dir_and_its_files_witness :
  cleanup "/tmp/tmpd" cleanup_world =
  (Ok tt, set_dirs ["/tmp"] (set_files [(("/tmp", "keep"), "y")] cleanup_world)).
Proof.
  apply (cleanup_removes_dir_and_its_files "/tmp/tmpd" cleanup_world).
  - left; reflexivity.
  - cbn; constructor; [intros [H|[]]; discriminate H | constructor; [intros []|constructor]].
  - intros d' [<-|[<-|[]]]; reflexivity.
Defined.

Lemma ns_lookup_push {V} (ns : list (string * V)) k v k' :
  ns_lookup (ns_push ns k v) k' = if String.eqb k k' then Some v else ns_lookup ns k'.
Proof.
  unfold ns_lookup, ns_push; cbn.
  destruct (String.eqb k k') eqn:E; [reflexivity|].
  induction ns as [|[k1 v1] ns IH]; cbn; [reflexivity|].
  destruct (String.eqb k1 k) eqn:E1; cbn.
  - apply String.eqb_eq in E1; subst k1; rewrite E; exact IH.
  - destruct (String.eqb k1 k'); [reflexivity | exact IH].
Qed.

Lemma ns_lookup_cons {V} (l : list (string * V)) k0 v0 k :
  ns_lookup ((k0, v0) :: l) k = if String.eqb k0 k then Some v0 else ns_lookup l k.
Proof. unfold ns_lookup; cbn; destruct (String.eqb k0 k); reflexivity. Qed.

Lemma ns_lookup_notin {V} (ns : list (string * V)) k :
  ~ In k (map fst ns) -> ns_lookup ns k = None.
Proof.
  intros H; unfold ns_lookup.
  destruct (find (fun e => String.eqb (fst e) k) ns) as [[k1 v1]|] eqn:F; [|reflexivity].
  apply find_some in F as [Hin Hk]; cbn in Hk; apply String.eqb_eq in Hk; subst k1.
  exfalso; apply H, (in_map fst _ _ Hin).
Qed.

(** Property X7: [_import_all] pushes into the shell every name of the
    module that does not start with ['__'], bound to its value in the
    module; names starting with ['__'] are never pushed, and every name the
    module does not export keeps its previous binding. *)
Theorem import_all_lookup {V} (items ns : list (string * V)) k :
  NoDup (map fst items) ->
  ns_lookup (import_all items ns) k =
  if String.prefix "__" k then ns_lookup ns k
  else match ns_lookup items k with Some v => Some v | None => ns_lookup ns k end.
Proof.
  revert ns; induction items as [|[k0 v0] items IH]; intros ns Hnd.
  - cbn; destruct (String.prefix "__" k); reflexivity.
  - inversion Hnd as [|? ? Hk0 Hnd']; subst.
    change (import_all ((k0, v0) :: items) ns)
      with (import_all items (if negb (String.prefix "__" k0) then ns_push ns k0 v0 else ns)).
    rewrite (IH _ Hnd'), ns_lookup_cons.
    destruct (String.prefix "__" k) eqn:Pk.
    + destruct (String.prefix "__" k0) eqn:Pk0; cbn; [reflexivity|].
      rewrite ns_lookup_push.
      destruct (String.eqb k0 k) eqn:E; [|reflexivity].
      apply String.eqb_eq in E; subst k0; congruence.
    + destruct (String.eqb k0 k) eqn:E.
      * apply String.eqb_eq in E; subst k0.
        rewrite (ns_lookup_notin items k Hk0), Pk; cbn.
        rewrite ns_lookup_push, String.eqb_refl; reflexivity.
      * destruct (String.prefix "__" k0); cbn; [|rewrite ns_lookup_push, E];
          destruct (ns_lookup items k); reflexivity.
Qed.

Lemma import_all_lookup_witness :
  ns_lookup (import_all [("__name__", 1); ("f", 2)] [("__name__", 0)]) "f" = Some 2 /\
  ns_lookup (import_all [("__name__", 1); ("f", 2)] [("__name__", 0)]) "__name__" = Some 0.
Proof.
  split.
  - rewrite (import_all_lookup [("__name__", 1); ("f", 2)] [("__name__", 0)] "f");
      [reflexivity|].
    constructor; [intros [H|[]]; discriminate H | constructor; [intros []|constructor]].
  - rewrite (import_all_lookup [("__name__", 1); ("f", 2)] [("__name__", 0)] "__name__");
      [reflexivity|].
    constructor; [intros [H|[]]; discriminate H | constructor; [intros []|constructor]].
Defined.

Lemma inkscape_available_frame ext w :
  exists b w1, inkscape_available ext w = (Ok b, w1) /\
    (trace w1 = trace w \/
     trace w1 = (trace w ++ [EvCall ["inkscape"; "--export-png"]])%list) /\
    tmp_counter w1 = tmp_counter w.
Proof.
  rewrite inkscape_available_eq.
  destruct (inkscape_cache w) as [b|].
  - exists b, w; split; [reflexivity|]; split; [left|]; reflexivity.
  - rewrite run_command_eq.
    destruct (ext_call ext _); cbn;
      (eexists; eexists; split; [reflexivity|]; split; [right|]; reflexivity).
Qed.

(** [diag] up to the availability test, for the statements on its events. *)
Lemma diag_after_probe ext line cell command w :
  exists w2,
    diag ext line cell command w = diag_tail ext cell command w2 /\
    (trace w2 = trace w \/
     trace w2 = (trace w ++ [EvCall ["inkscape"; "--export-png"]])%list) /\
    tmp_counter w2 = tmp_counter w.
Proof.
  destruct (inkscape_available_frame ext w) as [b [w1 [E [T C]]]].
  rewrite diag_split, (bind_ok _ _ _ _ _ E).
  destruct b; eexists; (split; [reflexivity|]); split; cbn; eauto.
Qed.

(** Property X8: when [tempfile.mkdtemp()] fails, [diag] does not raise its
    [OSError] but a [NameError] (the [finally] clause reads the unbound
    [tmpdir]), and the only thing it has done is the probe of [inkscape]:
    nothing is rendered and nothing is published. *)
Theorem diag_mkdtemp_failure ext line cell command w :
  ext_mkdtemp ext (tmp_counter w) = None ->
  fst (diag ext line cell command w) = Err (NameError "tmpdir") /\
  forall ev, In ev (skipn (length (trace w)) (trace (snd (diag ext line cell command w)))) ->
             is_probe ev = true.
Proof.
  intros Hn.
  destruct (diag_after_probe ext line cell command w) as [w2 [-> [T C]]].
  assert (Emk : mkdtemp ext w2 = (Err (OSError "mkdtemp"), set_tmp_counter (S (tmp_counter w2)) w2)).
  { unfold mkdtemp, fresh_name, bind, gets, modify, ret, raise; cbv beta iota.
    rewrite C, Hn; reflexivity. }
  unfold diag_tail; rewrite bind_attempt, Emk; cbn.
  split; [reflexivity|].
  destruct T as [T|T]; rewrite T.
  - rewrite skipn_all; intros ev [].
  - rewrite skipn_length_app; intros ev [<-|[]]; reflexivity.
Qed.

Lemma diag_mkdtemp_failure_witness :
  let ext := mkExternals (fun _ => CallExited 0 []) (fun _ _ => RenderRaised)
               (fun _ => None) (fun _ => None) (fun _ => true) in
  ext_mkdtemp ext (tmp_counter sample_world) = None /\
  fst (diag ext "" "A -> B;" "blockdiag.command" sample_world) = Err (NameError "tmpdir").
Proof.
  cbv zeta; split; [reflexivity|].
  apply (diag_mkdtemp_failure _ "" "A -> B;" "blockdiag.command" sample_world); reflexivity.
Defined.

Lemma diag_body_counts ext d code command w r w' :
  diag_body ext d code command w = (r, w') ->
  publish_mode w' = publish_mode w /\
  exists eb, trace w' = (trace w ++ eb)%list /\
    count_ev is_publish eb = 0 /\ count_ev is_render eb <= 1.
Proof.
  intros E; apply diag_body_spec in E as [_ [Hp H]].
  split; [exact Hp|].
  destruct H as [[Ht _]|[p [argv H]]].
  - exists []; rewrite app_nil_r; split; [exact Ht|]; split; [reflexivity|]; cbn; lia.
  - cbv zeta in H; destruct H as [[Ht _]|[_ [data [Ht _]]]];
      (eexists; split; [rewrite Ht; try rewrite <- app_assoc; reflexivity|]);
      unfold count_ev;
      destruct (render_ok (ext_render ext command argv) && (draw_mode w =? "SVG")
                && (publish_mode w =? "PNG")); cbn; split; lia.
Qed.

Lemma diag_tail_counts ext cell command w r w' :
  diag_tail ext cell command w = (r, w') ->
  exists evs, trace w' = (trace w ++ evs)%list /\
    count_ev is_publish evs = (match r with Ok _ => 1 | Err _ => 0 end) /\
    count_ev is_render evs <= 1.
Proof.
  intros E; unfold diag_tail in E; rewrite bind_attempt in E.
  destruct (mkdtemp_tf ext (trace w) (draw_mode w) (publish_mode w) w
              (conj eq_refl (conj eq_refl eq_refl))) as [T1 [_ P1]].
  destruct (mkdtemp ext w) as [[d|e] w1]; cbn [fst snd] in E, T1, P1.
  2:{ unfold raise in E; inversion E; subst.
      exists []; rewrite app_nil_r; split; [exact T1|]; split; [reflexivity|]; cbn; lia. }
  rewrite bind_attempt in E.
  destruct (diag_body ext d (cell ++ String "010" EmptyString) command w1)
    as [rb wb] eqn:EB; cbn [fst snd] in E.
  apply diag_body_counts in EB as [Pb [eb [Tb [Cb Rb]]]].
  rewrite bind_eq in E.
  destruct (cleanup_tf d (trace wb) (draw_mode wb) (publish_mode wb) wb
              (conj eq_refl (conj eq_refl eq_refl))) as [Tc [_ Pc]].
  destruct (cleanup d wb) as [[u|e] wc]; cbn [fst snd] in E, Tc, Pc.
  2:{ inversion E; subst.
      exists eb; split; [rewrite Tc, Tb, T1; reflexivity|]; split; assumption. }
  destruct rb as [data|e].
  2:{ change (bind (of_result (Err e)) ?k wc) with (raise (A := unit) e wc) in E.
      unfold raise in E; inversion E; subst.
      exists eb; split; [rewrite Tc, Tb, T1; reflexivity|]; split; assumption. }
  change (bind (of_result (Ok data)) ?k wc) with (k data wc) in E; cbv beta in E.
  rewrite bind_gets in E.
  destruct (String.eqb (publish_mode wc) "SVG");
    unfold publish_display_data, emit, modify in E; inversion E; subst; clear E;
    (eexists; split; [cbn [trace set_trace]; rewrite Tc, Tb, T1, <- app_assoc; reflexivity|]);
    (rewrite !count_ev_app, Cb; cbn; split; [reflexivity | lia]).
Qed.

(** Property X9: a call of [diag] (a cell magic run) calls the renderer at
    most once, and publishes exactly one display when it returns and none
    when it raises. *)
Theorem diag_publishes_once_iff_returns ext line cell command w :
  let evs := skipn (length (trace w)) (trace (snd (diag ext line cell command w))) in
  count_ev is_publish evs = (match fst (diag ext line cell command w) with
                             | Ok _ => 1 | Err _ => 0 end) /\
  count_ev is_render evs <= 1.
Proof.
  cbv zeta.
  destruct (diag_after_probe ext line cell command w) as [w2 [-> [T _]]].
  destruct (diag_tail ext cell command w2) as [r w'] eqn:Et.
  apply diag_tail_counts in Et as [evs [Tt [Cp Cr]]].
  cbn [fst snd]; rewrite Tt.
  destruct T as [T|T]; rewrite T; [|rewrite <- app_assoc];
    rewrite skipn_length_app; [split; assumption|].
  rewrite !count_ev_app; cbn; split; lia.
Qed.

Lemma mkstemp_in_dir ext d w :
  match fst (mkstemp ext d w) with Ok p => fst p = d | Err _ => True end.
Proof.
  unfold mkstemp, fresh_name, bind, gets, modify, ret, raise, os_call; cbv beta iota.
  destruct (ext_mkstemp ext (tmp_counter w)) as [b|]; cbv beta iota; [|exact I].
  match goal with |- context [match ?c with Some _ => _ | None => _ end] => destruct c end;
    [exact I | reflexivity].
Qed.

Ltac extends_close :=
  intros [] [rest H]; intros; cbn in *; subst; eexists;
  rewrite <- ?app_assoc; reflexivity.

(** Property X10: the body of [diag] either stops before the renderer (when
    [tempfile.mkstemp] or the write fails) or calls it first, as
    [command.main([diag_name, '-T', fmt, '-o', diag_name + '.' + fmt])], with
    [fmt] the draw mode in lower case, one more empty argument in SVG mode,
    and [diag_name] a file of the temporary directory. *)
Theorem diag_body_render_argv ext d code command w :
  let w' := snd (diag_body ext d code command w) in
  trace w' = trace w \/
  exists p rest, fst p = d /\
    trace w' = (trace w ++ EvRender command (render_argv p (draw_mode w)) :: rest)%list.
Proof.
  cbv zeta; unfold diag_body; rewrite bind_eq.
  pose proof (mkstemp_tf ext d (trace w) (draw_mode w) (publish_mode w) w
                (conj eq_refl (conj eq_refl eq_refl))) as F1.
  pose proof (mkstemp_in_dir ext d w) as Hd.
  destruct (mkstemp ext d w) as [[p|e] w1]; cbn in F1, Hd; destruct F1 as [T1 [D1 P1]];
    [|left; exact T1].
  rewrite bind_eq.
  pose proof (write_file_tf p code (trace w) (draw_mode w) (publish_mode w) w1
                (conj T1 (conj D1 P1))) as F2.
  destruct (write_file p code w1) as [[u|e] w2]; cbn in F2; destruct F2 as [T2 [D2 _]];
    [|left; exact T2].
  rewrite !bind_gets; cbv beta zeta.
  rewrite bind_eq, command_main_eq, D2.
  set (argv := if String.eqb (draw_mode w) "SVG"
               then ([path_str p; "-T"; lower (draw_mode w); "-o";
                      path_str (path_append p ("." ++ lower (draw_mode w)))] ++ [""])%list
               else [path_str p; "-T"; lower (draw_mode w); "-o";
                     path_str (path_append p ("." ++ lower (draw_mode w)))]).
  assert (Ha : argv = render_argv p (draw_mode w)).
  { unfold argv, render_argv; cbv zeta.
    destruct (String.eqb (draw_mode w) "SVG"); [reflexivity | rewrite app_nil_r; reflexivity]. }
  right; exists p.
  destruct (ext_render ext command argv) as [|ws].
  - exists []; split; [exact Hd|]; cbn; rewrite T2, Ha; reflexivity.
  - cbv zeta iota.
    match goal with
    | |- exists rest, _ /\ trace (snd (?m ?w3)) = _ =>
        assert (Hp : preserves (extends (trace w ++ [EvRender command argv])%list) m)
          by (pres_with extends_close);
        assert (H3 : extends (trace w ++ [EvRender command argv])%list w3)
          by (exists []; cbn; rewrite T2, app_nil_r; reflexivity);
        destruct (Hp w3 H3) as [rest Hr]
    end.
    exists rest; split; [exact Hd|]; rewrite Hr, <- Ha, <- app_assoc; reflexivity.
Qed.

End Extras.
